(** * yt-rag: the AI provider layer ([app/services/embedding.py])

    A shallow embedding of [EmbeddingService] and [ChatService], the two
    classes of [app/services/embedding.py], and the properties of the
    service specification that concern them.

    The Python code talks to two remote vendors and to a logger.  Both are
    made explicit: a [World] carries the log records and the trace of
    remote calls issued so far, the vendors are an oracle ([Remote]) that
    answers each request with a response or an exception, and every method
    is a computation in a state-and-exception monad [M] over [World]. *)

From Stdlib Require Import ZArith PrimFloat.
From stdpp Require Import base option list strings pretty gmap.

(** ** Exceptions and results *)

(** An instance of (a subclass of) Python's [Exception]: its class and the
    text [str(e)] gives.  Both handlers of the module are
    [except Exception]; interpreter signals that are not [Exception]s
    (keyboard interrupt, interpreter exit) are not part of the model. *)
Record Exc := mkExc { exc_class : string; exc_str : string }.

Inductive result (A : Type) : Type :=
| Ok (a : A)
| Raise (e : Exc).
Arguments Ok {A} a.
Arguments Raise {A} e.

#[global] Instance result_ret : MRet result := λ A a, Ok a.
#[global] Instance result_bind : MBind result := λ A B k r,
  match r with
  | Ok a => k a
  | Raise e => Raise e
  end.

Definition IndexError : Exc := mkExc "IndexError" "list index out of range".
Definition ValueError (msg : string) : Exc := mkExc "ValueError" msg.
Definition AttributeError (msg : string) : Exc := mkExc "AttributeError" msg.
Definition UnboundLocalError (msg : string) : Exc := mkExc "UnboundLocalError" msg.

(** ** Python values held by a context block

    A context block is a [Dict[str, Any]].  Of [Any] the code only asks
    that it can be formatted into an f-string, so a value is a string, an
    integer, [None], or an object of some other class, which is
    represented by what formatting it does: return a string or raise. *)
Inductive PyVal : Type :=
| VStr (s : string)
| VInt (n : Z)
| VNone
| VObject (formatted : result string).

(** The interpreter converts an integer to text only when it has at most
    [sys.int_info.default_max_str_digits] decimal digits, the sign not
    counted, that is when its absolute value is below ten to that power;
    for a longer integer the conversion raises [ValueError]. *)
Definition int_max_str_digits : Z := 4300.

Definition int_printable (n : Z) : bool :=
  (Z.abs n <? 10 ^ int_max_str_digits)%Z.
Arguments int_printable : simpl never.

Definition int_too_long : Exc :=
  ValueError "Exceeds the limit (4300 digits) for integer string conversion; use sys.set_int_max_str_digits() to increase the limit".

(** [format(v, '')], which is what [f"{v}"] evaluates. *)
Definition py_format (v : PyVal) : result string :=
  match v with
  | VStr s => Ok s
  | VInt n => if int_printable n then Ok (pretty n) else Raise int_too_long
  | VNone => Ok "None"
  | VObject formatted => formatted
  end.

(** [d.get(key, default)] *)
Definition dict_get (d : gmap string PyVal) (key : string) (default : PyVal) : PyVal :=
  match d !! key with
  | Some v => v
  | None => default
  end.

(** [l[i]] for a non-negative index. *)
Definition py_getitem {A : Type} (l : list A) (i : nat) : result A :=
  match l !! i with
  | Some x => Ok x
  | None => Raise IndexError
  end.

(** [sep.join(parts)]: the separator is written before every item but the
    first. *)
Fixpoint py_join_from (sep : string) (parts : list string) (first : bool) (acc : string) : string :=
  match parts with
  | [] => acc
  | item :: rest =>
      py_join_from sep rest false
        (if first then acc +:+ item else acc +:+ sep +:+ item)
  end.

Definition py_join (sep : string) (parts : list string) : string :=
  py_join_from sep parts true EmptyString.

(** [answer or alt] where [answer] is a string or [None]: [None] and the
    empty string are falsy. *)
Definition py_or (answer : option string) (alt : string) : string :=
  match answer with
  | None => alt
  | Some EmptyString => alt
  | Some s => s
  end.

(** ** The vendor libraries

    Of the [openai] and [anthropic] packages the module uses the client
    constructors, three [create] calls and a few attributes of their
    responses.  The records below carry exactly what the module passes and
    reads. *)

(** A [{"role": ..., "content": ...}] message. *)
Record ChatMessage := { role : string; content : string }.

Module openai.
Record OpenAI := { api_key : string }.

Record EmbeddingRequest := { emb_model : string; input : list string }.
Record Embedding := { embedding : list float }.
Record CreateEmbeddingResponse := { data : list Embedding }.

Record ChatRequest := {
  model : string;
  messages : list ChatMessage;
  temperature : float;
  max_tokens : Z
}.
Record ChatCompletionMessage := { content : option string }.
Record Choice := { message : ChatCompletionMessage }.
Record ChatCompletion := { choices : list Choice }.
End openai.

Module anthropic.
Record Anthropic := { api_key : string }.

Record MessagesRequest := {
  model : string;
  max_tokens : Z;
  temperature : float;
  system : string;
  messages : list ChatMessage
}.
Record TextBlock := { text : string }.
Record Message := { content : list TextBlock }.
End anthropic.

(** The remote side: what each endpoint answers to a request made with a
    given API key. *)
Record Remote := {
  embeddings_endpoint :
    string → openai.EmbeddingRequest → result openai.CreateEmbeddingResponse;
  chat_completions_endpoint :
    string → openai.ChatRequest → result openai.ChatCompletion;
  messages_endpoint :
    string → anthropic.MessagesRequest → result anthropic.Message
}.

(** ** The world: log records and the trace of remote calls *)

Inductive Level := INFO | ERROR.

Inductive RemoteCall : Type :=
| EmbeddingsCreate (key : string) (req : openai.EmbeddingRequest)
| ChatCompletionsCreate (key : string) (req : openai.ChatRequest)
| MessagesCreate (key : string) (req : anthropic.MessagesRequest).

Record World := {
  logged : list (Level * string);
  remote_calls : list RemoteCall
}.

Definition M (A : Type) : Type := World → result A * World.

#[global] Instance M_ret : MRet M := λ A a w, (Ok a, w).
#[global] Instance M_bind : MBind M := λ A B k m w,
  match m w with
  | (Ok a, w') => k a w'
  | (Raise e, w') => (Raise e, w')
  end.

Definition raise {A : Type} (e : Exc) : M A := λ w, (Raise e, w).

Definition lift {A : Type} (r : result A) : M A := λ w, (r, w).

(** [try: body / except Exception as e: handler e] *)
Definition try_except {A : Type} (body : M A) (handler : Exc → M A) : M A := λ w,
  match body w with
  | (Ok a, w') => (Ok a, w')
  | (Raise e, w') => handler e w'
  end.

Definition log_record (lvl : Level) (msg : string) : M unit := λ w,
  (Ok tt, {| logged := logged w ++ [(lvl, msg)]; remote_calls := remote_calls w |}).

Definition logger_info : string → M unit := log_record INFO.
Definition logger_error : string → M unit := log_record ERROR.

Definition record_call (c : RemoteCall) : M unit := λ w,
  (Ok tt, {| logged := logged w; remote_calls := remote_calls w ++ [c] |}).

(** ** Settings

    Modelled from the spec: the settings object of [app/core/config.py],
    which is not part of the sources at hand.  The specification lists the
    fields the module reads from it: the provider name, one API key per
    vendor, the model names and the temperature.  The keys are strings
    that are present: settings without a key, for which a vendor client
    refuses to be built, are not represented. *)
Record Settings := {
  ai_provider : string;
  openai_api_key : string;
  anthropic_api_key : string;
  openai_embed_model : string;
  openai_chat_model : string;
  anthropic_chat_model : string;
  temperature : float
}.

(** ** The two services *)

(** Instance attributes of [EmbeddingService]. *)
Record EmbeddingService := {
  openai_client : openai.OpenAI;
  embed_model : string
}.

(** The [client] attribute of [ChatService] holds a client of either
    vendor. *)
Inductive Client : Type :=
| OpenAIClient (c : openai.OpenAI)
| AnthropicClient (c : anthropic.Anthropic).

(** Instance attributes of [ChatService]. *)
Record ChatService := {
  provider : string;
  client : Client;
  model : string
}.

Definition system_prompt : string :=
"You are a helpful AI assistant for customer support that answers questions based on provided context.

IMPORTANT RULES:
1. For questions about policies, returns, shipping, sizing, or support: Answer ONLY using the provided context and include citations
2. For general greetings or casual conversation: You can respond naturally and friendly
3. For questions outside your knowledge base: Politely redirect to relevant policies or suggest contacting support
4. Always include citations [chunk_id] when using context information
5. Be concise but comprehensive
6. Maintain a helpful, professional tone".

(** The separator of [generate_answer]'s join: two newlines. *)
Definition blank_line : string :=
"

".

(** The f-string [f"[{chunk_id}] {text}"]; the fields are formatted left
    to right. *)
Definition render_block (block : gmap string PyVal) : result string :=
  let chunk_id := dict_get block "chunk_id" (VStr "unknown") in
  let text := dict_get block "text" (VStr EmptyString) in
  c ← py_format chunk_id;
  t ← py_format text;
  mret ("[" +:+ c +:+ "] " +:+ t).

(** The [for block in context_blocks] loop, appending to [context_parts]. *)
Fixpoint build_context_parts (context_blocks : list (gmap string PyVal))
    (context_parts : list string) : result (list string) :=
  match context_blocks with
  | [] => Ok context_parts
  | block :: rest =>
      line ← render_block block;
      build_context_parts rest (context_parts ++ [line])
  end.

(** The context string: the loop over the blocks, then
    ["\n\n".join(context_parts)]. *)
Definition render_context (context_blocks : list (gmap string PyVal)) : result string :=
  context_parts ← build_context_parts context_blocks [];
  mret (py_join blank_line context_parts).

(** The f-string assigned to [user_prompt]. *)
Definition build_user_prompt (context query : string) : string :=
"Context:
" +:+ context +:+ "

Question: " +:+ query +:+ "

Please provide an answer based on the context above, including appropriate citations.".

Section Services.

(** The module-level [settings = get_settings()] and the remote vendors. *)
Variable settings : Settings.
Variable remote : Remote.

(** [client.embeddings.create(model=..., input=...)] *)
Definition embeddings_create (c : openai.OpenAI) (req : openai.EmbeddingRequest)
    : M openai.CreateEmbeddingResponse :=
  record_call (EmbeddingsCreate (openai.api_key c) req);;
  lift (embeddings_endpoint remote (openai.api_key c) req).

(** [client.chat.completions.create(...)]; a client of the other vendor
    has no [chat] attribute. *)
Definition chat_completions_create (c : Client) (req : openai.ChatRequest)
    : M openai.ChatCompletion :=
  match c with
  | OpenAIClient c =>
      record_call (ChatCompletionsCreate (openai.api_key c) req);;
      lift (chat_completions_endpoint remote (openai.api_key c) req)
  | AnthropicClient _ =>
      raise (AttributeError "'Anthropic' object has no attribute 'chat'")
  end.

(** [client.messages.create(...)]; a client of the other vendor has no
    [messages] attribute. *)
Definition messages_create (c : Client) (req : anthropic.MessagesRequest)
    : M anthropic.Message :=
  match c with
  | AnthropicClient c =>
      record_call (MessagesCreate (anthropic.api_key c) req);;
      lift (messages_endpoint remote (anthropic.api_key c) req)
  | OpenAIClient _ =>
      raise (AttributeError "'OpenAI' object has no attribute 'messages'")
  end.

(** [EmbeddingService.__init__] *)
Definition EmbeddingService_init : EmbeddingService :=
  {| openai_client := {| openai.api_key := openai_api_key settings |};
     embed_model := openai_embed_model settings |}.

(** [EmbeddingService.embed_texts] *)
Definition embed_texts (self : EmbeddingService) (texts : list string)
    : M (list (list float)) :=
  try_except
    (response ← embeddings_create (openai_client self)
        {| openai.emb_model := embed_model self; openai.input := texts |};
     let embeddings := map openai.embedding (openai.data response) in
     logger_info ("Generated embeddings for " +:+ pretty (length texts) +:+ " texts");;
     mret embeddings)
    (λ e,
     logger_error ("Failed to generate embeddings: " +:+ exc_str e);;
     raise e).

(** [EmbeddingService.embed_query] *)
Definition embed_query (self : EmbeddingService) (query : string) : M (list float) :=
  embeddings ← embed_texts self [query];
  lift (py_getitem embeddings 0).

(** [ChatService.__init__] *)
Definition ChatService_init : M ChatService :=
  let provider := ai_provider settings in
  bound ←
    (if String.eqb provider "openai" then
       mret (OpenAIClient {| openai.api_key := openai_api_key settings |},
             openai_chat_model settings)
     else if String.eqb provider "anthropic" then
       mret (AnthropicClient {| anthropic.api_key := anthropic_api_key settings |},
             anthropic_chat_model settings)
     else
       raise (ValueError ("Unsupported AI provider: " +:+ provider)));
  logger_info ("Initialized chat service with " +:+ provider
               +:+ " (" +:+ bound.2 +:+ ")");;
  mret {| provider := provider; client := bound.1; model := bound.2 |}.

(** The body of the [try] of [generate_answer].  The local [answer] is
    bound by one of the two branches; when [self.provider] is neither
    name no branch runs and reading [answer] fails. *)
Definition request_answer (self : ChatService) (user_prompt : string) : M string :=
  answer ←
    (if String.eqb (provider self) "openai" then
       response ← chat_completions_create (client self)
         {| openai.model := model self;
            openai.messages :=
              [ {| role := "system"; content := system_prompt |};
                {| role := "user"; content := user_prompt |} ];
            openai.temperature := temperature settings;
            openai.max_tokens := 1000 |};
       choice ← lift (py_getitem (openai.choices response) 0);
       mret (Some (openai.content (openai.message choice)))
     else if String.eqb (provider self) "anthropic" then
       response ← messages_create (client self)
         {| anthropic.model := model self;
            anthropic.max_tokens := 1000;
            anthropic.temperature := temperature settings;
            anthropic.system := system_prompt;
            anthropic.messages := [ {| role := "user"; content := user_prompt |} ] |};
       block ← lift (py_getitem (anthropic.content response) 0);
       mret (Some (Some (anthropic.text block)))
     else
       mret None);
  logger_info ("Generated answer using " +:+ provider self);;
  match answer with
  | Some answer => mret (py_or answer "I couldn't generate an answer.")
  | None =>
      raise (UnboundLocalError
        "cannot access local variable 'answer' where it is not associated with a value")
  end.

(** [ChatService.generate_answer] *)
Definition generate_answer (self : ChatService) (query : string)
    (context_blocks : list (gmap string PyVal)) : M string :=
  context ← lift (render_context context_blocks);
  let user_prompt := build_user_prompt context query in
  try_except
    (request_answer self user_prompt)
    (λ e,
     logger_error ("Failed to generate answer: " +:+ exc_str e);;
     mret ("I encountered an error while processing your question: " +:+ exc_str e)).

End Services.

(** ** The specification's wording of the context rendering

    The service specification describes the context as one line
    [[<chunk_id>] <text>] per block in the order given, consecutive lines
    separated by a blank line, for blocks whose [chunk_id] is a string or
    an integer and whose [text] is a string, either of which may be
    missing.  These definitions follow that wording; the theorems below
    compare them with what [generate_answer] computes. *)

(** A block as the data model of the specification describes it. *)
Definition spec_block (block : gmap string PyVal) : bool :=
  match block !! "chunk_id" with
  | None | Some (VStr _) | Some (VInt _) => true
  | _ => false
  end &&
  match block !! "text" with
  | None | Some (VStr _) => true
  | _ => false
  end.

(** The [chunk_id] of the block, when it is an integer, is one the
    interpreter converts to text. *)
Definition chunk_id_printable (block : gmap string PyVal) : bool :=
  match block !! "chunk_id" with
  | Some (VInt n) => int_printable n
  | _ => true
  end.

Definition spec_chunk_id (block : gmap string PyVal) : string :=
  match block !! "chunk_id" with
  | Some (VStr s) => s
  | Some (VInt n) => pretty n
  | _ => "unknown"
  end.

Definition spec_text (block : gmap string PyVal) : string :=
  match block !! "text" with
  | Some (VStr s) => s
  | _ => EmptyString
  end.

Definition spec_line (block : gmap string PyVal) : string :=
  "[" +:+ spec_chunk_id block +:+ "] " +:+ spec_text block.

Fixpoint spec_join_lines (lines : list string) : string :=
  match lines with
  | [] => EmptyString
  | [line] => line
  | line :: rest => line +:+ blank_line +:+ spec_join_lines rest
  end.

Definition spec_context (blocks : list (gmap string PyVal)) : string :=
  spec_join_lines (map spec_line blocks).

(** ** Observations used in the statements *)

(** The settings with another provider name, everything else unchanged. *)
Definition with_provider (p : string) (s : Settings) : Settings :=
  {| ai_provider := p;
     openai_api_key := openai_api_key s;
     anthropic_api_key := anthropic_api_key s;
     openai_embed_model := openai_embed_model s;
     openai_chat_model := openai_chat_model s;
     anthropic_chat_model := anthropic_chat_model s;
     temperature := temperature s |}.

(** The request the [openai] branch of [generate_answer] builds for a user
    prompt, and the one the [anthropic] branch builds. *)
Definition chat_request (settings : Settings) (self : ChatService)
    (user_prompt : string) : openai.ChatRequest :=
  {| openai.model := model self;
     openai.messages :=
       [ {| role := "system"; content := system_prompt |};
         {| role := "user"; content := user_prompt |} ];
     openai.temperature := temperature settings;
     openai.max_tokens := 1000 |}.

Definition messages_request (settings : Settings) (self : ChatService)
    (user_prompt : string) : anthropic.MessagesRequest :=
  {| anthropic.model := model self;
     anthropic.max_tokens := 1000;
     anthropic.temperature := temperature settings;
     anthropic.system := system_prompt;
     anthropic.messages := [ {| role := "user"; content := user_prompt |} ] |}.

(** The user prompt a remote call carries: the content of its last
    message. *)
Definition user_prompt_of (call : RemoteCall) : option string :=
  match call with
  | EmbeddingsCreate _ _ => None
  | ChatCompletionsCreate _ req => content <$> last (openai.messages req)
  | MessagesCreate _ req => content <$> last (anthropic.messages req)
  end.

(** The world after one remote call and one more
    log record. *)
Definition after_call (w : World) (call : RemoteCall) (lvl : Level) (msg : string) : World :=
  {| logged := logged w ++ [(lvl, msg)]; remote_calls := remote_calls w ++ [call] |}.

(** A world in which nothing has been logged or called yet. *)
Definition fresh : World := {| logged := []; remote_calls := [] |}.

(** ** Stub settings and vendors

    Concrete settings and stub vendors on which the statements below are
    exercised. *)

Definition example_settings : Settings :=
  {| ai_provider := "openai";
     openai_api_key := "sk-openai";
     anthropic_api_key := "sk-anthropic";
     openai_embed_model := "text-embedding-3-small";
     openai_chat_model := "gpt-4o";
     anthropic_chat_model := "claude-3-5-sonnet";
     temperature := 0.5 |}.

(** The vector the stub vendor gives a text: tagged by the text. *)
Definition stub_vector (t : string) : list float :=
  if String.eqb t "alpha" then [0.25; 1]%float
  else if String.eqb t "beta" then [0.5; 2]%float
  else [0.75; 3]%float.

(** A vendor that answers every request. *)
Definition stub_remote (answer : option string) : Remote :=
  {| embeddings_endpoint := λ _ req,
       Ok {| openai.data :=
               map (λ t, {| openai.embedding := stub_vector t |}) (openai.input req) |};
     chat_completions_endpoint := λ _ _,
       Ok {| openai.choices :=
               [ {| openai.message := {| openai.content := answer |} |} ] |};
     messages_endpoint := λ _ _,
       Ok {| anthropic.content :=
               [ {| anthropic.text := default EmptyString answer |} ] |} |}.

(** A vendor whose every endpoint fails. *)
Definition connection_error : Exc := mkExc "APIConnectionError" "Connection error.".

Definition failing_remote : Remote :=
  {| embeddings_endpoint := λ _ _, Raise connection_error;
     chat_completions_endpoint := λ _ _, Raise connection_error;
     messages_endpoint := λ _ _, Raise connection_error |}.

(** The two blocks of the specification's rendering example, a block with
    neither field, and a block whose [chunk_id] cannot be formatted. *)
Definition block_a : gmap string PyVal := {[ "chunk_id" := VStr "a"; "text" := VStr "T1" ]}.
Definition block_b : gmap string PyVal := {[ "chunk_id" := VStr "b"; "text" := VStr "T2" ]}.
Definition bare_block : gmap string PyVal := ∅.

(** A block of the data model whose integer [chunk_id] has 4301 digits. *)
Definition long_id_block : gmap string PyVal :=
  {[ "chunk_id" := VInt (10 ^ 4300); "text" := VStr "T" ]}.

Definition format_error : Exc := mkExc "RuntimeError" "cannot format".
Definition broken_block : gmap string PyVal :=
  {[ "chunk_id" := VObject (Raise format_error); "text" := VStr "T" ]}.

(** The services [ChatService_init] builds for the two providers. *)
Definition openai_service : ChatService :=
  {| provider := "openai";
     client := OpenAIClient {| openai.api_key := "sk-openai" |};
     model := "gpt-4o" |}.

Definition anthropic_service : ChatService :=
  {| provider := "anthropic";
     client := AnthropicClient {| anthropic.api_key := "sk-anthropic" |};
     model := "claude-3-5-sonnet" |}.

(** ** The module's instances *)

(** The last two statements of the module, run when it is imported:
    [embedding_service = EmbeddingService()] and then
    [chat_service = ChatService()]. *)
Definition module_instances (settings : Settings) : M (EmbeddingService * ChatService) :=
  let embedding_service := EmbeddingService_init settings in
  chat_service ← ChatService_init settings;
  mret (embedding_service, chat_service).

(** A vendor whose responses carry no element at all, and one that
    answers every embedding request with a single vector. *)
Definition hollow_remote : Remote :=
  {| embeddings_endpoint := λ _ _, Ok {| openai.data := [] |};
     chat_completions_endpoint := λ _ _, Ok {| openai.choices := [] |};
     messages_endpoint := λ _ _, Ok {| anthropic.content := [] |} |}.

Definition single_vector_remote : Remote :=
  {| embeddings_endpoint := λ _ _,
       Ok {| openai.data := [ {| openai.embedding := stub_vector "alpha" |} ] |};
     chat_completions_endpoint := λ _ _, Raise connection_error;
     messages_endpoint := λ _ _, Raise connection_error |}.

(** * Properties *)

(** ** Running the monad *)

Lemma run_bind {A B : Type} (m : M A) (k : A → M B) (w : World) :
  (m ≫= k) w =
  match m w with
  | (Ok a, w') => k a w'
  | (Raise e, w') => (Raise e, w')
  end.
Proof. reflexivity. Qed.

Lemma run_lift_bind {A B : Type} (r : result A) (k : A → M B) (w : World) :
  (lift r ≫= k) w =
  match r with
  | Ok a => k a w
  | Raise e => (Raise e, w)
  end.
Proof. rewrite run_bind. unfold lift. by destruct r. Qed.

(** A handler that returns a value makes the whole statement return. *)
Lemma try_except_total {A : Type} (body : M A) (handler : Exc → M A) w :
  (∀ e w1, ∃ a w2, handler e w1 = (Ok a, w2)) →
  ∃ a w', try_except body handler w = (Ok a, w').
Proof.
  intros Hhandler. unfold try_except.
  destruct (body w) as [[a|e] w1]; [by eauto | apply Hhandler].
Qed.

(** ** The embedding service *)

(** What [embed_texts] does on either outcome of the remote call. *)
Lemma embed_texts_run remote self texts w :
  let key := openai.api_key (openai_client self) in
  let req := {| openai.emb_model := embed_model self; openai.input := texts |} in
  embed_texts remote self texts w =
  match embeddings_endpoint remote key req with
  | Ok response =>
      (Ok (map openai.embedding (openai.data response)),
       {| logged := logged w ++
            [(INFO, "Generated embeddings for " +:+ pretty (length texts) +:+ " texts")];
          remote_calls := remote_calls w ++ [EmbeddingsCreate key req] |})
  | Raise e =>
      (Raise e,
       {| logged := logged w ++ [(ERROR, "Failed to generate embeddings: " +:+ exc_str e)];
          remote_calls := remote_calls w ++ [EmbeddingsCreate key req] |})
  end.
Proof.
  intros key req. unfold embed_texts, try_except, embeddings_create.
  rewrite !run_bind. cbn.
  fold key req. by destruct (embeddings_endpoint remote key req).
Qed.

(** C8: when the remote embedding call fails, [embed_texts] logs the
    failure and raises the very same exception: the outcome is that
    exception and no value, the log gains one error record, and the trace
    gains exactly the one call that failed, so nothing was retried. *)
Theorem embed_texts_reraises remote self texts w e :
  embeddings_endpoint remote (openai.api_key (openai_client self))
    {| openai.emb_model := embed_model self; openai.input := texts |} = Raise e →
  embed_texts remote self texts w =
  (Raise e,
   {| logged := logged w ++ [(ERROR, "Failed to generate embeddings: " +:+ exc_str e)];
      remote_calls := remote_calls w ++
        [EmbeddingsCreate (openai.api_key (openai_client self))
           {| openai.emb_model := embed_model self; openai.input := texts |}] |}).
Proof. intros Hfail. rewrite embed_texts_run. cbv zeta. by rewrite Hfail. Qed.

Lemma embed_texts_reraises_witness :
  embed_texts failing_remote (EmbeddingService_init example_settings) ["alpha"; "beta"] fresh =
  (Raise connection_error,
   {| logged := [(ERROR, "Failed to generate embeddings: Connection error.")];
      remote_calls :=
        [EmbeddingsCreate "sk-openai"
           {| openai.emb_model := "text-embedding-3-small";
              openai.input := ["alpha"; "beta"] |}] |}).
Proof.
  exact (embed_texts_reraises failing_remote (EmbeddingService_init example_settings)
           ["alpha"; "beta"] fresh connection_error eq_refl).
Defined.

(** C3: when the vendor answers with one embedding per input text, in the
    order submitted, [embed_texts] returns as many vectors as there are
    texts and the vector at each position is the vendor's embedding of the
    text at that position; for no texts it returns the empty list.  The
    correspondence between a text and its embedding is any relation [R]. *)
Theorem embed_texts_preserves_order remote self texts w response
    (R : string → list float → Prop) :
  embeddings_endpoint remote (openai.api_key (openai_client self))
    {| openai.emb_model := embed_model self; openai.input := texts |} = Ok response →
  Forall2 (λ t item, R t (openai.embedding item)) texts (openai.data response) →
  ∃ out w',
    embed_texts remote self texts w = (Ok out, w') ∧
    length out = length texts ∧
    (∀ i t, texts !! i = Some t → ∃ v, out !! i = Some v ∧ R t v) ∧
    (texts = [] → out = []).
Proof.
  intros Hcall Hcontract.
  exists (map openai.embedding (openai.data response)).
  rewrite embed_texts_run. cbv zeta. rewrite Hcall.
  eexists. split; [reflexivity |].
  assert (Hout : Forall2 R texts (map openai.embedding (openai.data response))).
  { clear Hcall. induction Hcontract; constructor; auto. }
  split; [symmetry; eapply Forall2_length; eassumption |].
  split.
  - intros i t Hi.
    destruct (Forall2_lookup_l _ _ _ _ _ Hout Hi) as (v & Hv & HR). eauto.
  - intros ->. by inversion Hout.
Qed.

Lemma embed_texts_preserves_order_witness :
  ∃ out w',
    embed_texts (stub_remote None) (EmbeddingService_init example_settings)
      ["beta"; "alpha"] fresh = (Ok out, w') ∧
    length out = 2 ∧
    (∀ i t, ["beta"; "alpha"] !! i = Some t → ∃ v, out !! i = Some v ∧ v = stub_vector t) ∧
    (["beta"; "alpha"] = [] → out = []).
Proof.
  apply (embed_texts_preserves_order (stub_remote None)
           (EmbeddingService_init example_settings) ["beta"; "alpha"] fresh
           {| openai.data := [ {| openai.embedding := stub_vector "beta" |};
                               {| openai.embedding := stub_vector "alpha" |} ] |}
           (λ t v, v = stub_vector t)).
  - reflexivity.
  - repeat constructor.
Defined.

(** C7: [embed_query x] is [embed_texts [x]] followed by taking element 0:
    on success it is the first vector of that result (and the index error
    of [[0]] when the result is empty), and an exception of [embed_texts]
    is the exception of [embed_query]; the log and the remote calls are
    those of [embed_texts]. *)
Theorem embed_query_is_first_of_embed_texts remote self query w :
  embed_query remote self query w =
  match embed_texts remote self [query] w with
  | (Ok [], w') => (Raise IndexError, w')
  | (Ok (v :: _), w') => (Ok v, w')
  | (Raise e, w') => (Raise e, w')
  end.
Proof.
  unfold embed_query. rewrite run_bind.
  destruct (embed_texts remote self [query] w) as [[[|v rest]|e] w']; reflexivity.
Qed.

(** C10: whatever the provider name in the settings, the embedding service
    holds an OpenAI client made with the OpenAI key and the OpenAI
    embedding model; changing the provider name changes neither the
    service nor what [embed_texts] does, and the one remote call it makes
    is an OpenAI embeddings call with that key and model. *)
Theorem embedding_service_ignores_provider settings p remote texts w :
  EmbeddingService_init settings =
    {| openai_client := {| openai.api_key := openai_api_key settings |};
       embed_model := openai_embed_model settings |} ∧
  EmbeddingService_init (with_provider p settings) = EmbeddingService_init settings ∧
  embed_texts remote (EmbeddingService_init (with_provider p settings)) texts w =
    embed_texts remote (EmbeddingService_init settings) texts w ∧
  remote_calls (embed_texts remote (EmbeddingService_init (with_provider p settings)) texts w).2 =
    remote_calls w ++
      [EmbeddingsCreate (openai_api_key settings)
         {| openai.emb_model := openai_embed_model settings; openai.input := texts |}].
Proof.
  repeat split.
  rewrite embed_texts_run. cbn.
  by destruct (embeddings_endpoint remote _ _).
Qed.

(** ** The chat service: construction *)

Lemma ChatService_init_openai settings w :
  ai_provider settings = "openai" →
  ChatService_init settings w =
  (Ok {| provider := "openai";
         client := OpenAIClient {| openai.api_key := openai_api_key settings |};
         model := openai_chat_model settings |},
   {| logged := logged w ++
        [(INFO, "Initialized chat service with openai (" +:+ openai_chat_model settings +:+ ")")];
      remote_calls := remote_calls w |}).
Proof. intros Hp. unfold ChatService_init. rewrite Hp. reflexivity. Qed.

Lemma ChatService_init_anthropic settings w :
  ai_provider settings = "anthropic" →
  ChatService_init settings w =
  (Ok {| provider := "anthropic";
         client := AnthropicClient {| anthropic.api_key := anthropic_api_key settings |};
         model := anthropic_chat_model settings |},
   {| logged := logged w ++
        [(INFO, "Initialized chat service with anthropic (" +:+ anthropic_chat_model settings +:+ ")")];
      remote_calls := remote_calls w |}).
Proof. intros Hp. unfold ChatService_init. rewrite Hp. reflexivity. Qed.

Lemma ChatService_init_other settings w :
  ai_provider settings ≠ "openai" →
  ai_provider settings ≠ "anthropic" →
  ChatService_init settings w =
  (Raise (ValueError ("Unsupported AI provider: " +:+ ai_provider settings)), w).
Proof.
  intros Ho Ha. unfold ChatService_init.
  apply String.eqb_neq in Ho. apply String.eqb_neq in Ha.
  rewrite run_bind, Ho, Ha. reflexivity.
Qed.

(** A service that was constructed has one of the two provider names and
    the client and model that go with it. *)
Lemma ChatService_init_inv settings w self w' :
  ChatService_init settings w = (Ok self, w') →
  (ai_provider settings = "openai" ∧
   self = {| provider := "openai";
             client := OpenAIClient {| openai.api_key := openai_api_key settings |};
             model := openai_chat_model settings |}) ∨
  (ai_provider settings = "anthropic" ∧
   self = {| provider := "anthropic";
             client := AnthropicClient {| anthropic.api_key := anthropic_api_key settings |};
             model := anthropic_chat_model settings |}).
Proof.
  intros Hinit.
  destruct (decide (ai_provider settings = "openai")) as [Ho|Ho].
  { left. rewrite ChatService_init_openai in Hinit by done. by inversion Hinit. }
  destruct (decide (ai_provider settings = "anthropic")) as [Ha|Ha].
  { right. rewrite ChatService_init_anthropic in Hinit by done. by inversion Hinit. }
  rewrite ChatService_init_other in Hinit by done. discriminate.
Qed.

(** C4: constructing the chat service with a provider name that is neither
    [openai] nor [anthropic] raises a [ValueError] whose message ends with
    that name; the world is left as it was, so no remote call was made, and
    no service with some default provider is returned. *)
Theorem ChatService_init_unsupported settings w :
  ai_provider settings ≠ "openai" →
  ai_provider settings ≠ "anthropic" →
  ChatService_init settings w =
    (Raise (mkExc "ValueError" ("Unsupported AI provider: " +:+ ai_provider settings)), w) ∧
  remote_calls (ChatService_init settings w).2 = remote_calls w ∧
  ¬ ∃ self w', ChatService_init settings w = (Ok self, w').
Proof.
  intros Ho Ha. rewrite ChatService_init_other by done.
  repeat split. intros (self & w' & Hinit). discriminate.
Qed.

Lemma ChatService_init_unsupported_witness :
  ChatService_init (with_provider "cohere" example_settings) fresh =
    (Raise (mkExc "ValueError" "Unsupported AI provider: cohere"), fresh) ∧
  remote_calls (ChatService_init (with_provider "cohere" example_settings) fresh).2 = [] ∧
  ¬ ∃ self w', ChatService_init (with_provider "cohere" example_settings) fresh = (Ok self, w').
Proof.
  apply (ChatService_init_unsupported (with_provider "cohere" example_settings) fresh);
    discriminate.
Defined.

(** ** Rendering the context *)

Lemma string_app_cons (a : Ascii.ascii) (s1 s2 : string) :
  String a s1 +:+ s2 = String a (s1 +:+ s2).
Proof. reflexivity. Qed.

Lemma string_app_assoc (s1 s2 s3 : string) :
  (s1 +:+ s2) +:+ s3 = s1 +:+ (s2 +:+ s3).
Proof.
  induction s1 as [|a s1 IH]; [reflexivity |].
  by rewrite !string_app_cons, IH.
Qed.

(** The loop appends to the accumulator one line per block, in order, or
    stops at the first block that cannot be formatted. *)
Lemma build_context_parts_app blocks : ∀ acc lines,
  Forall2 (λ block line, render_block block = Ok line) blocks lines →
  build_context_parts blocks acc = Ok (acc ++ lines).
Proof.
  induction blocks as [|block blocks IH]; intros acc lines Hlines.
  - inversion Hlines; subst. cbn. by rewrite app_nil_r.
  - inversion Hlines as [|? line ? lines' Hline Hrest]; subst.
    cbn. rewrite Hline. cbn. rewrite (IH _ lines') by done.
    by rewrite <- app_assoc.
Qed.

Lemma render_block_spec block :
  spec_block block = true → chunk_id_printable block = true →
  render_block block = Ok (spec_line block).
Proof.
  unfold spec_block, chunk_id_printable, render_block, spec_line, spec_chunk_id,
    spec_text, dict_get.
  destruct (block !! "chunk_id") as [[s|n| |r]|];
    destruct (block !! "text") as [[s'|n'| |r']|]; cbn; intros Hspec Hprint;
    try discriminate; rewrite ?Hprint; reflexivity.
Qed.

Lemma build_context_parts_spec blocks :
  Forall (λ block, spec_block block = true) blocks →
  Forall (λ block, chunk_id_printable block = true) blocks →
  build_context_parts blocks [] = Ok (map spec_line blocks).
Proof.
  intros Hspec Hprint.
  apply (build_context_parts_app blocks [] (map spec_line blocks)).
  induction Hspec as [|block blocks Hblock _ IH]; cbn; [constructor |].
  apply Forall_cons in Hprint as [Hhead Htail].
  constructor; [by apply render_block_spec | by apply IH].
Qed.

(** Python's join, which writes the separator before every item but the
    first, against the wording "a blank line between consecutive lines". *)
Lemma py_join_from_spec lines : ∀ acc line,
  py_join_from blank_line lines false (acc +:+ line) =
  acc +:+ spec_join_lines (line :: lines).
Proof.
  induction lines as [|next lines IH]; intros acc line.
  - reflexivity.
  - cbn [py_join_from].
    rewrite <- (string_app_assoc (acc +:+ line) blank_line next).
    rewrite IH.
    change (spec_join_lines (line :: next :: lines))
      with (line +:+ blank_line +:+ spec_join_lines (next :: lines)).
    by rewrite !string_app_assoc.
Qed.

Lemma py_join_spec lines : py_join blank_line lines = spec_join_lines lines.
Proof.
  destruct lines as [|line lines]; [reflexivity |].
  unfold py_join. cbn [py_join_from].
  apply (py_join_from_spec lines EmptyString line).
Qed.

Lemma render_context_spec blocks :
  Forall (λ block, spec_block block = true) blocks →
  Forall (λ block, chunk_id_printable block = true) blocks →
  render_context blocks = Ok (spec_context blocks).
Proof.
  intros Hspec Hprint. unfold render_context, spec_context.
  rewrite build_context_parts_spec by done.
  rewrite <- py_join_spec. reflexivity.
Qed.

(** C6: a block without a [chunk_id] is rendered with the identifier
    [unknown], a block without a [text] is rendered with nothing after the
    bracket and the space, and a block with neither is rendered as
    [[unknown] ] without an error; the field that is present is formatted
    as usual. *)
Theorem render_block_defaults (block : gmap string PyVal) :
  (block !! "chunk_id" = None →
   ∀ v t, block !! "text" = Some v → py_format v = Ok t →
   render_block block = Ok ("[" +:+ "unknown" +:+ "] " +:+ t)) ∧
  (block !! "text" = None →
   ∀ v c, block !! "chunk_id" = Some v → py_format v = Ok c →
   render_block block = Ok ("[" +:+ c +:+ "] " +:+ EmptyString)) ∧
  (block !! "chunk_id" = None → block !! "text" = None →
   render_block block = Ok "[unknown] ").
Proof.
  unfold render_block, dict_get. repeat split.
  - intros Hid v t Htext Hfmt. rewrite Hid, Htext. cbn. by rewrite Hfmt.
  - intros Htext v c Hid Hfmt. rewrite Hid, Htext. cbn. by rewrite Hfmt.
  - intros Hid Htext. by rewrite Hid, Htext.
Qed.

Lemma render_block_defaults_witness :
  render_block {[ "text" := VStr "T1" ]} = Ok "[unknown] T1" ∧
  render_block {[ "chunk_id" := VInt 7 ]} = Ok "[7] " ∧
  render_block bare_block = Ok "[unknown] ".
Proof.
  split; [| split].
  - assert (Hid : ({[ "text" := VStr "T1" ]} : gmap string PyVal) !! "chunk_id" = None)
      by (vm_compute; reflexivity).
    assert (Htext : ({[ "text" := VStr "T1" ]} : gmap string PyVal) !! "text"
                    = Some (VStr "T1")) by (vm_compute; reflexivity).
    exact (proj1 (render_block_defaults _) Hid (VStr "T1") "T1" Htext eq_refl).
  - assert (Htext : ({[ "chunk_id" := VInt 7 ]} : gmap string PyVal) !! "text" = None)
      by (vm_compute; reflexivity).
    assert (Hid : ({[ "chunk_id" := VInt 7 ]} : gmap string PyVal) !! "chunk_id"
                  = Some (VInt 7)) by (vm_compute; reflexivity).
    exact (proj1 (proj2 (render_block_defaults _)) Htext (VInt 7) "7" Hid eq_refl).
  - assert (Hid : bare_block !! "chunk_id" = None) by (vm_compute; reflexivity).
    assert (Htext : bare_block !! "text" = None) by (vm_compute; reflexivity).
    exact (proj2 (proj2 (render_block_defaults _)) Hid Htext).
Defined.

(** ** The chat service: answering *)

(** Rendering happens before the [try]: an exception raised there leaves
    [generate_answer] as it is, with nothing logged and nothing called. *)
Lemma generate_answer_render_raise settings remote self query blocks w e :
  render_context blocks = Raise e →
  generate_answer settings remote self query blocks w = (Raise e, w).
Proof. intros Hctx. unfold generate_answer. by rewrite run_lift_bind, Hctx. Qed.

Lemma generate_answer_rendered settings remote self query blocks w context :
  render_context blocks = Ok context →
  generate_answer settings remote self query blocks w =
  try_except
    (request_answer settings remote self (build_user_prompt context query))
    (λ e,
     logger_error ("Failed to generate answer: " +:+ exc_str e);;
     mret ("I encountered an error while processing your question: " +:+ exc_str e)) w.
Proof. intros Hctx. unfold generate_answer. by rewrite run_lift_bind, Hctx. Qed.

(** Case analysis on what the vendor replied: an exception, a response
    without a first element, or a response with one. *)
Ltac case_reply :=
  match goal with
  | |- context [chat_completions_endpoint ?r ?k ?q] =>
      destruct (chat_completions_endpoint r k q) as [[[|? ?]]|?]
  | |- context [messages_endpoint ?r ?k ?q] =>
      destruct (messages_endpoint r k q) as [[[|? ?]]|?]
  end.

Lemma generate_answer_openai settings remote self c query blocks w context :
  render_context blocks = Ok context →
  provider self = "openai" →
  client self = OpenAIClient c →
  let req := chat_request settings self (build_user_prompt context query) in
  let call := ChatCompletionsCreate (openai.api_key c) req in
  generate_answer settings remote self query blocks w =
  match chat_completions_endpoint remote (openai.api_key c) req with
  | Raise e =>
      (Ok ("I encountered an error while processing your question: " +:+ exc_str e),
       after_call w call ERROR ("Failed to generate answer: " +:+ exc_str e))
  | Ok response =>
      match openai.choices response with
      | [] =>
          (Ok ("I encountered an error while processing your question: " +:+ exc_str IndexError),
           after_call w call ERROR ("Failed to generate answer: " +:+ exc_str IndexError))
      | choice :: _ =>
          (Ok (py_or (openai.content (openai.message choice)) "I couldn't generate an answer."),
           after_call w call INFO "Generated answer using openai")
      end
  end.
Proof.
  intros Hctx Hp Hc req call.
  rewrite (generate_answer_rendered _ _ _ _ _ _ _ Hctx).
  unfold try_except, request_answer, chat_completions_create.
  subst req call. unfold chat_request.
  rewrite Hp, Hc, String.eqb_refl, !run_bind. cbn.
  case_reply; reflexivity.
Qed.

Lemma generate_answer_anthropic settings remote self c query blocks w context :
  render_context blocks = Ok context →
  provider self = "anthropic" →
  client self = AnthropicClient c →
  let req := messages_request settings self (build_user_prompt context query) in
  let call := MessagesCreate (anthropic.api_key c) req in
  generate_answer settings remote self query blocks w =
  match messages_endpoint remote (anthropic.api_key c) req with
  | Raise e =>
      (Ok ("I encountered an error while processing your question: " +:+ exc_str e),
       after_call w call ERROR ("Failed to generate answer: " +:+ exc_str e))
  | Ok response =>
      match anthropic.content response with
      | [] =>
          (Ok ("I encountered an error while processing your question: " +:+ exc_str IndexError),
           after_call w call ERROR ("Failed to generate answer: " +:+ exc_str IndexError))
      | block :: _ =>
          (Ok (py_or (Some (anthropic.text block)) "I couldn't generate an answer."),
           after_call w call INFO "Generated answer using anthropic")
      end
  end.
Proof.
  intros Hctx Hp Hc req call.
  rewrite (generate_answer_rendered _ _ _ _ _ _ _ Hctx).
  subst req call. unfold messages_request.
  unfold try_except, request_answer, messages_create.
  rewrite Hp, Hc. change (String.eqb "anthropic" "openai") with false.
  rewrite String.eqb_refl, !run_bind. cbn.
  case_reply; reflexivity.
Qed.

(** Once the context is rendered, [generate_answer] returns a string,
    whatever the service, the vendor and the world. *)
Lemma generate_answer_returns settings remote self query blocks w context :
  render_context blocks = Ok context →
  ∃ answer w', generate_answer settings remote self query blocks w = (Ok answer, w').
Proof.
  intros Hctx. rewrite (generate_answer_rendered _ _ _ _ _ _ _ Hctx).
  apply try_except_total. intros e w1. by eexists _, _.
Qed.

Lemma build_user_prompt_shape context query :
  build_user_prompt context query =
  "Context:
" +:+ context +:+ blank_line +:+ "Question: " +:+ query +:+ blank_line +:+
  "Please provide an answer based on the context above, including appropriate citations.".
Proof. reflexivity. Qed.

(** The one remote call [generate_answer] makes for a constructed service
    carries the user prompt built from the rendered context. *)
Lemma generate_answer_call settings remote w0 self w1 query blocks context w :
  ChatService_init settings w0 = (Ok self, w1) →
  render_context blocks = Ok context →
  ∃ call,
    remote_calls (generate_answer settings remote self query blocks w).2 =
      remote_calls w ++ [call] ∧
    user_prompt_of call = Some (build_user_prompt context query).
Proof.
  intros Hinit Hctx.
  destruct (ChatService_init_inv _ _ _ _ Hinit) as [[_ ->]|[_ ->]].
  - eexists.
    erewrite generate_answer_openai; [| exact Hctx | reflexivity | reflexivity].
    split.
    { case_reply; reflexivity. }
    reflexivity.
  - eexists.
    erewrite generate_answer_anthropic; [| exact Hctx | reflexivity | reflexivity].
    split.
    { case_reply; reflexivity. }
    reflexivity.
Qed.

(** C2, as the code has it: for blocks as the data model describes them
    whose integer identifiers have at most 4300 digits, the context is the
    lines [[<chunk_id>] <text>], one per block and in the order of the
    blocks, with a blank line between consecutive lines; no blocks give
    the empty context; and the user prompt sent to the vendor is the
    context section, a blank line, [Question: <query>], a blank line and
    the closing instruction. *)
Theorem context_rendering settings remote w0 self w1 query blocks w :
  ChatService_init settings w0 = (Ok self, w1) →
  Forall (λ block, spec_block block = true) blocks →
  Forall (λ block, chunk_id_printable block = true) blocks →
  build_context_parts blocks [] = Ok (map spec_line blocks) ∧
  render_context blocks = Ok (spec_context blocks) ∧
  render_context [] = Ok EmptyString ∧
  ∃ call,
    remote_calls (generate_answer settings remote self query blocks w).2 =
      remote_calls w ++ [call] ∧
    user_prompt_of call = Some ("Context:
" +:+ spec_context blocks +:+ blank_line +:+ "Question: " +:+ query +:+ blank_line +:+
      "Please provide an answer based on the context above, including appropriate citations.").
Proof.
  intros Hinit Hspec Hprint.
  split; [by apply build_context_parts_spec |].
  split; [by apply render_context_spec |].
  split; [reflexivity |].
  rewrite <- build_user_prompt_shape.
  eapply generate_answer_call; [eassumption | by apply render_context_spec].
Qed.

Lemma context_rendering_witness :
  spec_context [block_a; block_b] = "[a] T1

[b] T2" ∧
  build_context_parts [block_a; block_b] [] = Ok (map spec_line [block_a; block_b]) ∧
  render_context [block_a; block_b] = Ok (spec_context [block_a; block_b]) ∧
  render_context [] = Ok EmptyString ∧
  ∃ call,
    remote_calls (generate_answer example_settings (stub_remote (Some "Fine."))
                    openai_service "Q" [block_a; block_b] fresh).2 = [] ++ [call] ∧
    user_prompt_of call = Some ("Context:
" +:+ spec_context [block_a; block_b] +:+ blank_line +:+ "Question: " +:+ "Q" +:+ blank_line +:+
      "Please provide an answer based on the context above, including appropriate citations.").
Proof.
  split; [vm_compute; reflexivity |].
  assert (Ha : spec_block block_a = true) by (vm_compute; reflexivity).
  assert (Hb : spec_block block_b = true) by (vm_compute; reflexivity).
  assert (Hpa : chunk_id_printable block_a = true) by (vm_compute; reflexivity).
  assert (Hpb : chunk_id_printable block_b = true) by (vm_compute; reflexivity).
  apply (context_rendering example_settings (stub_remote (Some "Fine.")) fresh
           openai_service _ "Q" [block_a; block_b] fresh eq_refl);
    repeat constructor; assumption.
Defined.

(** C2, as the specification words it, fails on a block of the data model
    whose integer [chunk_id] has more than 4300 digits: the f-string of
    the rendering loop raises [ValueError], no context is rendered and no
    request reaches the vendor. *)
Lemma long_integer_chunk_id_not_rendered :
  spec_block long_id_block = true ∧
  render_context [long_id_block] = Raise int_too_long ∧
  render_context [long_id_block] ≠ Ok (spec_context [long_id_block]) ∧
  generate_answer example_settings (stub_remote (Some "Fine.")) openai_service "Q"
    [long_id_block] fresh = (Raise int_too_long, fresh).
Proof.
  assert (Hid : long_id_block !! "chunk_id" = Some (VInt (10 ^ 4300))).
  { unfold long_id_block. apply lookup_insert_eq. }
  assert (Htext : long_id_block !! "text" = Some (VStr "T")).
  { unfold long_id_block. rewrite lookup_insert_ne by done.
    apply lookup_singleton_eq. }
  assert (Hlong : int_printable (10 ^ 4300) = false).
  { unfold int_printable, int_max_str_digits.
    rewrite Z.abs_eq by (apply Z.pow_nonneg; lia). apply Z.ltb_irrefl. }
  assert (Hctx : render_context [long_id_block] = Raise int_too_long).
  { unfold render_context, build_context_parts, render_block, dict_get.
    rewrite Hid, Htext. unfold py_format. by rewrite Hlong. }
  split; [unfold spec_block; by rewrite Hid, Htext |].
  split; [exact Hctx |].
  split; [rewrite Hctx; discriminate |].
  by apply generate_answer_render_raise.
Qed.

(** C9: for a constructed service the request follows the provider of the
    settings.  With [openai] the one remote call is a chat completion made
    with the OpenAI key: the bound model, a system-role message and then a
    user-role message, the temperature of the settings and 1000 as the
    maximum output length; the answer is the content of the first choice's
    message.  With [anthropic] it is a message call made with the
    Anthropic key: the bound model, the same maximum 1000, the temperature
    of the settings, the system prompt as the [system] parameter and the
    user prompt as the only message; the answer is the text of the first
    content block.  (An empty answer is replaced as C5 states.) *)
Theorem provider_dispatch settings remote w0 self w1 query blocks context w :
  ChatService_init settings w0 = (Ok self, w1) →
  render_context blocks = Ok context →
  (ai_provider settings = "openai" →
   model self = openai_chat_model settings ∧
   remote_calls (generate_answer settings remote self query blocks w).2 =
     remote_calls w ++
       [ChatCompletionsCreate (openai_api_key settings)
          {| openai.model := model self;
             openai.messages :=
               [ {| role := "system"; content := system_prompt |};
                 {| role := "user"; content := build_user_prompt context query |} ];
             openai.temperature := temperature settings;
             openai.max_tokens := 1000 |}] ∧
   ∀ choice rest,
     chat_completions_endpoint remote (openai_api_key settings)
       {| openai.model := model self;
          openai.messages :=
            [ {| role := "system"; content := system_prompt |};
              {| role := "user"; content := build_user_prompt context query |} ];
          openai.temperature := temperature settings;
          openai.max_tokens := 1000 |} = Ok {| openai.choices := choice :: rest |} →
     (generate_answer settings remote self query blocks w).1 =
       Ok (py_or (openai.content (openai.message choice)) "I couldn't generate an answer.")) ∧
  (ai_provider settings = "anthropic" →
   model self = anthropic_chat_model settings ∧
   remote_calls (generate_answer settings remote self query blocks w).2 =
     remote_calls w ++
       [MessagesCreate (anthropic_api_key settings)
          {| anthropic.model := model self;
             anthropic.max_tokens := 1000;
             anthropic.temperature := temperature settings;
             anthropic.system := system_prompt;
             anthropic.messages :=
               [ {| role := "user"; content := build_user_prompt context query |} ] |}] ∧
   ∀ block rest,
     messages_endpoint remote (anthropic_api_key settings)
       {| anthropic.model := model self;
          anthropic.max_tokens := 1000;
          anthropic.temperature := temperature settings;
          anthropic.system := system_prompt;
          anthropic.messages :=
            [ {| role := "user"; content := build_user_prompt context query |} ] |}
       = Ok {| anthropic.content := block :: rest |} →
     (generate_answer settings remote self query blocks w).1 =
       Ok (py_or (Some (anthropic.text block)) "I couldn't generate an answer.")).
Proof.
  intros Hinit Hctx. split; intros Hp.
  - rewrite ChatService_init_openai in Hinit by done.
    injection Hinit as <- _.
    erewrite generate_answer_openai; [| exact Hctx | reflexivity | reflexivity].
    unfold chat_request. cbn [model openai.api_key].
    split; [reflexivity |]. split.
    + case_reply; reflexivity.
    + intros choice rest ->. reflexivity.
  - rewrite ChatService_init_anthropic in Hinit by done.
    injection Hinit as <- _.
    erewrite generate_answer_anthropic; [| exact Hctx | reflexivity | reflexivity].
    unfold messages_request. cbn [model anthropic.api_key].
    split; [reflexivity |]. split.
    + case_reply; reflexivity.
    + intros block rest ->. reflexivity.
Qed.

Lemma provider_dispatch_witness :
  (remote_calls (generate_answer example_settings (stub_remote (Some "Fine."))
                   openai_service "Q" [block_a; block_b] fresh).2 =
     [ChatCompletionsCreate "sk-openai"
        {| openai.model := "gpt-4o";
           openai.messages :=
             [ {| role := "system"; content := system_prompt |};
               {| role := "user"; content := build_user_prompt "[a] T1

[b] T2" "Q" |} ];
           openai.temperature := 0.5;
           openai.max_tokens := 1000 |}] ∧
   (generate_answer example_settings (stub_remote (Some "Fine."))
      openai_service "Q" [block_a; block_b] fresh).1 = Ok "Fine.") ∧
  (remote_calls (generate_answer (with_provider "anthropic" example_settings)
                   (stub_remote (Some "Fine.")) anthropic_service "Q"
                   [block_a; block_b] fresh).2 =
     [MessagesCreate "sk-anthropic"
        {| anthropic.model := "claude-3-5-sonnet";
           anthropic.max_tokens := 1000;
           anthropic.temperature := 0.5;
           anthropic.system := system_prompt;
           anthropic.messages :=
             [ {| role := "user"; content := build_user_prompt "[a] T1

[b] T2" "Q" |} ] |}] ∧
   (generate_answer (with_provider "anthropic" example_settings)
      (stub_remote (Some "Fine.")) anthropic_service "Q" [block_a; block_b] fresh).1
     = Ok "Fine.").
Proof.
  assert (Hctx : render_context [block_a; block_b] = Ok "[a] T1

[b] T2") by (vm_compute; reflexivity).
  split.
  - destruct (provider_dispatch example_settings (stub_remote (Some "Fine.")) fresh
                openai_service _ "Q" [block_a; block_b] _ fresh eq_refl Hctx) as [Hopenai _].
    destruct (Hopenai eq_refl) as (_ & Hcalls & Hanswer).
    split; [exact Hcalls | exact (Hanswer _ _ eq_refl)].
  - destruct (provider_dispatch (with_provider "anthropic" example_settings)
                (stub_remote (Some "Fine.")) fresh anthropic_service _ "Q"
                [block_a; block_b] _ fresh eq_refl Hctx) as [_ Hanthropic].
    destruct (Hanthropic eq_refl) as (_ & Hcalls & Hanswer).
    split; [exact Hcalls | exact (Hanswer _ _ eq_refl)].
Defined.

(** C5: when the vendor call succeeds and the answer it carries is absent
    or empty, [generate_answer] returns the fallback sentence: for
    [openai] when the content of the first choice's message is [None] or
    the empty string, for [anthropic] when the text of the first content
    block is the empty string. *)
Theorem empty_answer_fallback settings remote self query blocks context w :
  render_context blocks = Ok context →
  (∀ c choice rest,
     provider self = "openai" → client self = OpenAIClient c →
     chat_completions_endpoint remote (openai.api_key c)
       (chat_request settings self (build_user_prompt context query))
       = Ok {| openai.choices := choice :: rest |} →
     openai.content (openai.message choice) = None ∨
     openai.content (openai.message choice) = Some EmptyString →
     (generate_answer settings remote self query blocks w).1 =
       Ok "I couldn't generate an answer.") ∧
  (∀ c block rest,
     provider self = "anthropic" → client self = AnthropicClient c →
     messages_endpoint remote (anthropic.api_key c)
       (messages_request settings self (build_user_prompt context query))
       = Ok {| anthropic.content := block :: rest |} →
     anthropic.text block = EmptyString →
     (generate_answer settings remote self query blocks w).1 =
       Ok "I couldn't generate an answer.").
Proof.
  intros Hctx. split.
  - intros c choice rest Hp Hc Hcall Hempty.
    rewrite (generate_answer_openai _ _ _ c _ _ _ _ Hctx Hp Hc). cbv zeta.
    rewrite Hcall. cbn. by destruct Hempty as [-> | ->].
  - intros c block rest Hp Hc Hcall Hempty.
    rewrite (generate_answer_anthropic _ _ _ c _ _ _ _ Hctx Hp Hc). cbv zeta.
    rewrite Hcall. cbn. by rewrite Hempty.
Qed.

Lemma empty_answer_fallback_witness :
  (generate_answer example_settings (stub_remote None)
     openai_service "Q" [block_a; block_b] fresh).1 = Ok "I couldn't generate an answer." ∧
  (generate_answer example_settings (stub_remote (Some EmptyString))
     openai_service "Q" [block_a; block_b] fresh).1 = Ok "I couldn't generate an answer." ∧
  (generate_answer (with_provider "anthropic" example_settings) (stub_remote None)
     anthropic_service "Q" [block_a; block_b] fresh).1 = Ok "I couldn't generate an answer.".
Proof.
  assert (Hctx : render_context [block_a; block_b] = Ok "[a] T1

[b] T2") by (vm_compute; reflexivity).
  split; [| split].
  - exact (proj1 (empty_answer_fallback example_settings (stub_remote None) openai_service
                    "Q" [block_a; block_b] _ fresh Hctx)
             _ _ _ eq_refl eq_refl eq_refl (or_introl eq_refl)).
  - exact (proj1 (empty_answer_fallback example_settings (stub_remote (Some EmptyString))
                    openai_service "Q" [block_a; block_b] _ fresh Hctx)
             _ _ _ eq_refl eq_refl eq_refl (or_intror eq_refl)).
  - exact (proj2 (empty_answer_fallback (with_provider "anthropic" example_settings)
                    (stub_remote None) anthropic_service "Q" [block_a; block_b] _ fresh Hctx)
             _ _ _ eq_refl eq_refl eq_refl eq_refl).
Defined.

(** C1, as the code has it: the context is rendered before the [try], so
    an exception raised while rendering leaves [generate_answer] uncaught,
    with nothing logged and no remote call made.  Once the context is
    rendered no exception leaves [generate_answer]; and when the remote
    call of the bound vendor raises, the failure is logged and the string
    returned is the fixed prefix followed by the text of that exception. *)
Theorem vendor_failure_is_answered settings remote self query blocks w :
  (∀ e, render_context blocks = Raise e →
     generate_answer settings remote self query blocks w = (Raise e, w)) ∧
  (∀ context, render_context blocks = Ok context →
     (∃ answer w', generate_answer settings remote self query blocks w = (Ok answer, w')) ∧
     (∀ c e,
        provider self = "openai" → client self = OpenAIClient c →
        chat_completions_endpoint remote (openai.api_key c)
          (chat_request settings self (build_user_prompt context query)) = Raise e →
        generate_answer settings remote self query blocks w =
          (Ok ("I encountered an error while processing your question: " +:+ exc_str e),
           after_call w
             (ChatCompletionsCreate (openai.api_key c)
                (chat_request settings self (build_user_prompt context query)))
             ERROR ("Failed to generate answer: " +:+ exc_str e))) ∧
     (∀ c e,
        provider self = "anthropic" → client self = AnthropicClient c →
        messages_endpoint remote (anthropic.api_key c)
          (messages_request settings self (build_user_prompt context query)) = Raise e →
        generate_answer settings remote self query blocks w =
          (Ok ("I encountered an error while processing your question: " +:+ exc_str e),
           after_call w
             (MessagesCreate (anthropic.api_key c)
                (messages_request settings self (build_user_prompt context query)))
             ERROR ("Failed to generate answer: " +:+ exc_str e)))).
Proof.
  split.
  - intros e. apply generate_answer_render_raise.
  - intros context Hctx. split; [by eapply generate_answer_returns |]. split.
    + intros c e Hp Hc Hcall.
      rewrite (generate_answer_openai _ _ _ c _ _ _ _ Hctx Hp Hc). cbv zeta.
      by rewrite Hcall.
    + intros c e Hp Hc Hcall.
      rewrite (generate_answer_anthropic _ _ _ c _ _ _ _ Hctx Hp Hc). cbv zeta.
      by rewrite Hcall.
Qed.

Lemma vendor_failure_is_answered_witness :
  (generate_answer example_settings failing_remote openai_service "Q"
     [block_a; block_b] fresh).1 =
    Ok "I encountered an error while processing your question: Connection error." ∧
  (generate_answer (with_provider "anthropic" example_settings) failing_remote
     anthropic_service "Q" [block_a; block_b] fresh).1 =
    Ok "I encountered an error while processing your question: Connection error." ∧
  generate_answer example_settings failing_remote openai_service "Q"
    [block_a; broken_block] fresh = (Raise format_error, fresh).
Proof.
  assert (Hctx : render_context [block_a; block_b] = Ok "[a] T1

[b] T2") by (vm_compute; reflexivity).
  assert (Hbroken : render_context [block_a; broken_block] = Raise format_error)
    by (vm_compute; reflexivity).
  split; [| split].
  - destruct (vendor_failure_is_answered example_settings failing_remote openai_service
                "Q" [block_a; block_b] fresh) as [_ Hrendered].
    destruct (Hrendered _ Hctx) as (_ & Hopenai & _).
    by rewrite (Hopenai _ connection_error eq_refl eq_refl eq_refl).
  - destruct (vendor_failure_is_answered (with_provider "anthropic" example_settings)
                failing_remote anthropic_service "Q" [block_a; block_b] fresh)
      as [_ Hrendered].
    destruct (Hrendered _ Hctx) as (_ & _ & Hanthropic).
    by rewrite (Hanthropic _ connection_error eq_refl eq_refl eq_refl).
  - exact (proj1 (vendor_failure_is_answered example_settings failing_remote
                    openai_service "Q" [block_a; broken_block] fresh) _ Hbroken).
Defined.

(** C1, as the specification words it, fails: a block whose [chunk_id]
    cannot be formatted makes the f-string of the rendering loop raise,
    outside the [try], and the exception reaches the caller instead of
    being turned into an answer. *)
Lemma prompt_failure_escapes :
  generate_answer example_settings (stub_remote (Some "Fine.")) openai_service "Q"
    [block_a; broken_block] fresh = (Raise format_error, fresh) ∧
  ¬ ∃ answer w',
      generate_answer example_settings (stub_remote (Some "Fine.")) openai_service "Q"
        [block_a; broken_block] fresh = (Ok answer, w').
Proof.
  assert (Hrun : generate_answer example_settings (stub_remote (Some "Fine."))
                   openai_service "Q" [block_a; broken_block] fresh
                 = (Raise format_error, fresh)) by (vm_compute; reflexivity).
  split; [exact Hrun |].
  intros (answer & w' & Hok). rewrite Hrun in Hok. discriminate.
Qed.

(** * Further properties of the module *)

(** ** Rendering, block by block *)

Lemma build_context_parts_bind l1 : ∀ l2 acc,
  build_context_parts (l1 ++ l2) acc =
  build_context_parts l1 acc ≫= build_context_parts l2.
Proof.
  induction l1 as [|block l1 IH]; intros l2 acc; [reflexivity |].
  cbn. destruct (render_block block) as [line|e]; cbn; [apply IH | reflexivity].
Qed.

Lemma build_context_parts_inv blocks : ∀ acc parts,
  build_context_parts blocks acc = Ok parts →
  ∃ lines,
    parts = acc ++ lines ∧
    Forall2 (λ block line, render_block block = Ok line) blocks lines.
Proof.
  induction blocks as [|block blocks IH]; intros acc parts Hparts.
  - cbn in Hparts. injection Hparts as <-. exists []. by rewrite app_nil_r.
  - cbn in Hparts. destruct (render_block block) as [line|e] eqn:Hline; [| discriminate].
    cbn in Hparts. destruct (IH _ _ Hparts) as (lines & -> & Hlines).
    exists (line :: lines). split; [by rewrite <- app_assoc | by constructor].
Qed.

Lemma spec_join_lines_app lines1 lines2 :
  lines1 ≠ [] → lines2 ≠ [] →
  spec_join_lines (lines1 ++ lines2) =
  spec_join_lines lines1 +:+ blank_line +:+ spec_join_lines lines2.
Proof.
  intros Hne1 Hne2. induction lines1 as [|line [|next lines1] IH]; [done | |].
  - destruct lines2; [done | reflexivity].
  - change (spec_join_lines ((line :: next :: lines1) ++ lines2))
      with (line +:+ blank_line +:+ spec_join_lines ((next :: lines1) ++ lines2)).
    rewrite IH by done.
    change (spec_join_lines (line :: next :: lines1))
      with (line +:+ blank_line +:+ spec_join_lines (next :: lines1)).
    by rewrite !string_app_assoc.
Qed.

(** Rendering succeeds exactly when every block has a line, and the
    context is then those lines joined. *)
Lemma render_context_inv blocks context :
  render_context blocks = Ok context ↔
  ∃ lines,
    Forall2 (λ block line, render_block block = Ok line) blocks lines ∧
    context = spec_join_lines lines.
Proof.
  unfold render_context. split.
  - destruct (build_context_parts blocks []) as [parts|e] eqn:Hparts; [| discriminate].
    cbn. intros [= <-].
    destruct (build_context_parts_inv _ _ _ Hparts) as (lines & -> & Hlines).
    exists lines. split; [exact Hlines | apply py_join_spec].
  - intros (lines & Hlines & ->).
    rewrite (build_context_parts_app blocks [] lines Hlines).
    rewrite <- py_join_spec. reflexivity.
Qed.

(** X1: the context is rendered exactly when every block can be
    formatted, and it then consists of the blocks' lines, one per block
    and in their order, with a blank line between consecutive lines,
    whatever the types of the values in the blocks. *)
Theorem render_context_lines blocks context :
  render_context blocks = Ok context ↔
  ∃ lines,
    Forall2 (λ block line, render_block block = Ok line) blocks lines ∧
    length lines = length blocks ∧
    context = spec_join_lines lines.
Proof.
  rewrite render_context_inv. split.
  - intros (lines & Hlines & ->). exists lines.
    split; [exact Hlines |]. split; [| reflexivity].
    symmetry. by eapply Forall2_length.
  - intros (lines & Hlines & _ & ->). by exists lines.
Qed.

Lemma render_context_lines_witness :
  ∃ lines,
    Forall2 (λ block line, render_block block = Ok line)
      [block_a; {[ "chunk_id" := VNone; "text" := VInt 3 ]}] lines ∧
    length lines = 2 ∧
    "[a] T1

[None] 3" = spec_join_lines lines.
Proof.
  apply (proj1 (render_context_lines
                  [block_a; {[ "chunk_id" := VNone; "text" := VInt 3 ]}] "[a] T1

[None] 3")).
  vm_compute. reflexivity.
Defined.

(** X2: keys other than [chunk_id] and [text] play no part in the
    rendering of a block: adding or changing such a key leaves the
    rendered line as it was. *)
Theorem render_block_ignores_metadata (block : gmap string PyVal) key v :
  key ≠ "chunk_id" → key ≠ "text" →
  render_block (<[key := v]> block) = render_block block.
Proof.
  intros Hid Htext. unfold render_block, dict_get.
  by rewrite !lookup_insert_ne.
Qed.

Lemma render_block_ignores_metadata_witness :
  render_block (<["similarity" := VObject (Raise format_error)]> block_a) =
  render_block block_a.
Proof.
  apply (render_block_ignores_metadata block_a "similarity"); discriminate.
Defined.

(** X3: the placeholder and the empty text stand in for a missing key
    only.  A [chunk_id] or a [text] that is present with the value [None]
    is rendered as the word [None]. *)
Theorem render_block_none_is_not_missing (block : gmap string PyVal) :
  (block !! "chunk_id" = Some VNone →
   ∀ v t, block !! "text" = Some v → py_format v = Ok t →
   render_block block = Ok ("[None] " +:+ t)) ∧
  (block !! "text" = Some VNone →
   ∀ v c, block !! "chunk_id" = Some v → py_format v = Ok c →
   render_block block = Ok ("[" +:+ c +:+ "] None")).
Proof.
  unfold render_block, dict_get. split.
  - intros Hid v t Htext Hfmt. rewrite Hid, Htext. cbn. by rewrite Hfmt.
  - intros Htext v c Hid Hfmt. rewrite Hid, Htext. cbn. by rewrite Hfmt.
Qed.

Lemma render_block_none_is_not_missing_witness :
  render_block {[ "chunk_id" := VNone; "text" := VStr "T" ]} = Ok "[None] T" ∧
  render_block {[ "chunk_id" := VInt 4; "text" := VNone ]} = Ok "[4] None".
Proof.
  split.
  - assert (Hid : ({[ "chunk_id" := VNone; "text" := VStr "T" ]} : gmap string PyVal)
                  !! "chunk_id" = Some VNone) by (vm_compute; reflexivity).
    assert (Htext : ({[ "chunk_id" := VNone; "text" := VStr "T" ]} : gmap string PyVal)
                    !! "text" = Some (VStr "T")) by (vm_compute; reflexivity).
    exact (proj1 (render_block_none_is_not_missing _) Hid (VStr "T") "T" Htext eq_refl).
  - assert (Htext : ({[ "chunk_id" := VInt 4; "text" := VNone ]} : gmap string PyVal)
                    !! "text" = Some VNone) by (vm_compute; reflexivity).
    assert (Hid : ({[ "chunk_id" := VInt 4; "text" := VNone ]} : gmap string PyVal)
                  !! "chunk_id" = Some (VInt 4)) by (vm_compute; reflexivity).
    exact (proj2 (render_block_none_is_not_missing _) Htext (VInt 4) "4" Hid eq_refl).
Defined.

(** X4: rendering stops at the first block that cannot be formatted: the
    exception of that block is the outcome, whatever the blocks after it
    are. *)
Theorem render_context_first_failure good lines bad rest e :
  Forall2 (λ block line, render_block block = Ok line) good lines →
  render_block bad = Raise e →
  render_context (good ++ bad :: rest) = Raise e.
Proof.
  intros Hgood Hbad. unfold render_context.
  rewrite build_context_parts_bind, (build_context_parts_app good [] lines Hgood).
  cbn. by rewrite Hbad.
Qed.

Lemma render_context_first_failure_witness :
  render_context ([block_a] ++ broken_block ::
                  [ {[ "chunk_id" := VObject (Raise connection_error) ]} ])
  = Raise format_error.
Proof.
  apply (render_context_first_failure [block_a] ["[a] T1"] broken_block).
  - constructor; [vm_compute; reflexivity | constructor].
  - vm_compute. reflexivity.
Defined.

(** X5: within a block the [chunk_id] is formatted before the [text]: when
    the [chunk_id] cannot be formatted its exception is the outcome, even
    if the [text] cannot be formatted either. *)
Theorem render_block_chunk_id_first (block : gmap string PyVal) v e :
  block !! "chunk_id" = Some v →
  py_format v = Raise e →
  render_block block = Raise e.
Proof.
  intros Hid Hfmt. unfold render_block, dict_get. rewrite Hid. cbn. by rewrite Hfmt.
Qed.

Lemma render_block_chunk_id_first_witness :
  render_block {[ "chunk_id" := VObject (Raise format_error);
                  "text" := VObject (Raise connection_error) ]}
  = Raise format_error.
Proof.
  apply (render_block_chunk_id_first _ (VObject (Raise format_error))).
  - vm_compute. reflexivity.
  - reflexivity.
Defined.

(** X6: rendering composes: the context of two non-empty lists of blocks
    put one after the other is the context of the first, a blank line, and
    the context of the second. *)
Theorem render_context_app blocks1 blocks2 context1 context2 :
  blocks1 ≠ [] → blocks2 ≠ [] →
  render_context blocks1 = Ok context1 →
  render_context blocks2 = Ok context2 →
  render_context (blocks1 ++ blocks2) = Ok (context1 +:+ blank_line +:+ context2).
Proof.
  intros Hne1 Hne2 Hctx1 Hctx2.
  apply render_context_inv in Hctx1 as (lines1 & Hlines1 & ->).
  apply render_context_inv in Hctx2 as (lines2 & Hlines2 & ->).
  apply render_context_inv. exists (lines1 ++ lines2).
  split; [by apply Forall2_app |].
  symmetry. apply spec_join_lines_app.
  - intros ->. apply Forall2_nil_inv_r in Hlines1. done.
  - intros ->. apply Forall2_nil_inv_r in Hlines2. done.
Qed.

Lemma render_context_app_witness :
  render_context ([block_a] ++ [block_b; bare_block]) = Ok ("[a] T1" +:+ blank_line +:+ "[b] T2

[unknown] ").
Proof.
  apply (render_context_app [block_a] [block_b; bare_block]);
    [discriminate | discriminate | vm_compute; reflexivity | vm_compute; reflexivity].
Defined.

(** X7: nothing in a text is escaped.  One block whose text goes on with a
    blank line and a bracketed identifier gives the same context as two
    blocks, so the boundaries between blocks cannot be read back from the
    context. *)
Theorem render_context_not_escaped (id1 text1 id2 text2 : string) :
  render_context
    [ {[ "chunk_id" := VStr id1;
         "text" := VStr (text1 +:+ blank_line +:+ "[" +:+ id2 +:+ "] " +:+ text2) ]} ] =
  render_context
    [ {[ "chunk_id" := VStr id1; "text" := VStr text1 ]};
      {[ "chunk_id" := VStr id2; "text" := VStr text2 ]} ].
Proof.
  assert (Hline : ∀ c t : string,
            render_block {[ "chunk_id" := VStr c; "text" := VStr t ]}
            = Ok ("[" +:+ c +:+ "] " +:+ t)).
  { intros c t. unfold render_block, dict_get. by simplify_map_eq. }
  unfold render_context. cbn [build_context_parts]. rewrite !Hline. cbn.
  f_equal. unfold py_join. cbn [py_join_from app].
  change (EmptyString +:+ ?s) with s.
  by rewrite !string_app_assoc.
Qed.

(** ** Answers *)

Lemma py_or_nonempty answer a alt : py_or answer (String a alt) ≠ EmptyString.
Proof. by destruct answer as [[|b s]|]. Qed.

Lemma request_answer_ok settings remote self user_prompt w answer w' :
  request_answer settings remote self user_prompt w = (Ok answer, w') →
  ∃ reply, answer = py_or reply "I couldn't generate an answer.".
Proof.
  unfold request_answer. rewrite run_bind.
  match goal with |- context [match ?m w with _ => _ end] =>
    destruct (m w) as [[[reply|]|e] w1] end;
    rewrite ?run_bind; cbn; intros Hrun; [| discriminate | discriminate].
  injection Hrun as <- _. by exists reply.
Qed.

(** X8: a string returned by [generate_answer] is never empty, whatever
    the service, the vendor, the query and the blocks: it is the vendor's
    non-empty answer, the fallback sentence or an error sentence. *)
Theorem generate_answer_never_empty settings remote self query blocks w answer w' :
  generate_answer settings remote self query blocks w = (Ok answer, w') →
  answer ≠ EmptyString.
Proof.
  intros Hrun.
  destruct (render_context blocks) as [context|e] eqn:Hctx.
  - rewrite (generate_answer_rendered _ _ _ _ _ _ _ Hctx) in Hrun.
    unfold try_except in Hrun.
    destruct (request_answer _ _ _ _ w) as [[reply|e] w1] eqn:Hreq.
    + injection Hrun as <- _.
      destruct (request_answer_ok _ _ _ _ _ _ _ Hreq) as (r & ->).
      apply py_or_nonempty.
    + cbn in Hrun. injection Hrun as <- _. discriminate.
  - rewrite (generate_answer_render_raise _ _ _ _ _ _ _ Hctx) in Hrun. discriminate.
Qed.

Lemma generate_answer_never_empty_witness :
  ∃ w',
    generate_answer example_settings (stub_remote (Some EmptyString))
      openai_service "Q" [block_a; block_b] fresh
    = (Ok "I couldn't generate an answer.", w') ∧
    "I couldn't generate an answer." ≠ EmptyString.
Proof.
  exists (generate_answer example_settings (stub_remote (Some EmptyString))
            openai_service "Q" [block_a; block_b] fresh).2.
  assert (Hrun : generate_answer example_settings (stub_remote (Some EmptyString))
                   openai_service "Q" [block_a; block_b] fresh
                 = (Ok "I couldn't generate an answer.",
                    (generate_answer example_settings (stub_remote (Some EmptyString))
                       openai_service "Q" [block_a; block_b] fresh).2))
    by (vm_compute; reflexivity).
  split; [exact Hrun |].
  exact (generate_answer_never_empty _ _ _ _ _ _ _ _ Hrun).
Defined.

(** X9: for a constructed service and blocks that can be rendered,
    [generate_answer] makes exactly one remote call and writes exactly one
    log record.  The record is either the information that an answer was
    generated with the provider of the settings, or an error record, and
    in that case the returned string is the error sentence for the same
    exception. *)
Theorem generate_answer_one_call_one_record
    settings remote w0 self w1 query blocks context w :
  ChatService_init settings w0 = (Ok self, w1) →
  render_context blocks = Ok context →
  ∃ call lvl msg,
    (generate_answer settings remote self query blocks w).2 = after_call w call lvl msg ∧
    ((lvl = INFO ∧ msg = "Generated answer using " +:+ ai_provider settings) ∨
     (lvl = ERROR ∧
      ∃ e, msg = "Failed to generate answer: " +:+ exc_str e ∧
           (generate_answer settings remote self query blocks w).1 =
             Ok ("I encountered an error while processing your question: " +:+ exc_str e))).
Proof.
  intros Hinit Hctx.
  destruct (ChatService_init_inv _ _ _ _ Hinit) as [[-> ->]|[-> ->]].
  - erewrite generate_answer_openai; [| exact Hctx | reflexivity | reflexivity].
    cbv zeta. case_reply; do 3 eexists; (split; [reflexivity |]); eauto.
  - erewrite generate_answer_anthropic; [| exact Hctx | reflexivity | reflexivity].
    cbv zeta. case_reply; do 3 eexists; (split; [reflexivity |]); eauto.
Qed.

Lemma generate_answer_one_call_one_record_witness :
  ∃ call lvl msg,
    (generate_answer example_settings hollow_remote openai_service "Q"
       [block_a; block_b] fresh).2 = after_call fresh call lvl msg ∧
    ((lvl = INFO ∧ msg = "Generated answer using " +:+ "openai") ∨
     (lvl = ERROR ∧
      ∃ e, msg = "Failed to generate answer: " +:+ exc_str e ∧
           (generate_answer example_settings hollow_remote openai_service "Q"
              [block_a; block_b] fresh).1 =
             Ok ("I encountered an error while processing your question: " +:+ exc_str e))).
Proof.
  assert (Hctx : render_context [block_a; block_b] = Ok "[a] T1

[b] T2") by (vm_compute; reflexivity).
  exact (generate_answer_one_call_one_record example_settings hollow_remote fresh
           openai_service _ "Q" [block_a; block_b] _ fresh eq_refl Hctx).
Defined.

(** X10: a response that carries no choice (openai) or no content block
    (anthropic) is a failure like any other: taking its first element
    raises the index error, which is logged and returned as the error
    sentence. *)
Theorem generate_answer_empty_response settings remote self query blocks context w :
  render_context blocks = Ok context →
  (∀ c,
     provider self = "openai" → client self = OpenAIClient c →
     chat_completions_endpoint remote (openai.api_key c)
       (chat_request settings self (build_user_prompt context query))
       = Ok {| openai.choices := [] |} →
     generate_answer settings remote self query blocks w =
       (Ok "I encountered an error while processing your question: list index out of range",
        after_call w
          (ChatCompletionsCreate (openai.api_key c)
             (chat_request settings self (build_user_prompt context query)))
          ERROR "Failed to generate answer: list index out of range")) ∧
  (∀ c,
     provider self = "anthropic" → client self = AnthropicClient c →
     messages_endpoint remote (anthropic.api_key c)
       (messages_request settings self (build_user_prompt context query))
       = Ok {| anthropic.content := [] |} →
     generate_answer settings remote self query blocks w =
       (Ok "I encountered an error while processing your question: list index out of range",
        after_call w
          (MessagesCreate (anthropic.api_key c)
             (messages_request settings self (build_user_prompt context query)))
          ERROR "Failed to generate answer: list index out of range")).
Proof.
  intros Hctx. split; intros c Hp Hc Hcall.
  - rewrite (generate_answer_openai _ _ _ c _ _ _ _ Hctx Hp Hc). cbv zeta.
    by rewrite Hcall.
  - rewrite (generate_answer_anthropic _ _ _ c _ _ _ _ Hctx Hp Hc). cbv zeta.
    by rewrite Hcall.
Qed.

Lemma generate_answer_empty_response_witness :
  (generate_answer example_settings hollow_remote openai_service "Q"
     [block_a; block_b] fresh).1 =
    Ok "I encountered an error while processing your question: list index out of range" ∧
  (generate_answer example_settings hollow_remote anthropic_service "Q"
     [block_a; block_b] fresh).1 =
    Ok "I encountered an error while processing your question: list index out of range".
Proof.
  assert (Hctx : render_context [block_a; block_b] = Ok "[a] T1

[b] T2") by (vm_compute; reflexivity).
  split.
  - by rewrite (proj1 (generate_answer_empty_response example_settings hollow_remote
                         openai_service "Q" [block_a; block_b] _ fresh Hctx)
                  _ eq_refl eq_refl eq_refl).
  - by rewrite (proj2 (generate_answer_empty_response example_settings hollow_remote
                         anthropic_service "Q" [block_a; block_b] _ fresh Hctx)
                  _ eq_refl eq_refl eq_refl).
Defined.

(** X11: a non-empty answer is returned exactly as the vendor gave it, and
    only the first choice or content block counts: whatever follows it in
    the response is ignored.  One information record names the provider. *)
Theorem generate_answer_verbatim settings remote self query blocks context w :
  render_context blocks = Ok context →
  (∀ c choice rest a s,
     provider self = "openai" → client self = OpenAIClient c →
     chat_completions_endpoint remote (openai.api_key c)
       (chat_request settings self (build_user_prompt context query))
       = Ok {| openai.choices := choice :: rest |} →
     openai.content (openai.message choice) = Some (String a s) →
     generate_answer settings remote self query blocks w =
       (Ok (String a s),
        after_call w
          (ChatCompletionsCreate (openai.api_key c)
             (chat_request settings self (build_user_prompt context query)))
          INFO "Generated answer using openai")) ∧
  (∀ c block rest a s,
     provider self = "anthropic" → client self = AnthropicClient c →
     messages_endpoint remote (anthropic.api_key c)
       (messages_request settings self (build_user_prompt context query))
       = Ok {| anthropic.content := block :: rest |} →
     anthropic.text block = String a s →
     generate_answer settings remote self query blocks w =
       (Ok (String a s),
        after_call w
          (MessagesCreate (anthropic.api_key c)
             (messages_request settings self (build_user_prompt context query)))
          INFO "Generated answer using anthropic")).
Proof.
  intros Hctx. split.
  - intros c choice rest a s Hp Hc Hcall Hcontent.
    rewrite (generate_answer_openai _ _ _ c _ _ _ _ Hctx Hp Hc). cbv zeta.
    rewrite Hcall. cbn. by rewrite Hcontent.
  - intros c block rest a s Hp Hc Hcall Htext.
    rewrite (generate_answer_anthropic _ _ _ c _ _ _ _ Hctx Hp Hc). cbv zeta.
    rewrite Hcall. cbn. by rewrite Htext.
Qed.

Lemma generate_answer_verbatim_witness :
  (generate_answer example_settings (stub_remote (Some "See [a]."))
     openai_service "Q" [block_a; block_b] fresh).1 = Ok "See [a]." ∧
  (generate_answer example_settings (stub_remote (Some "See [a]."))
     anthropic_service "Q" [block_a; block_b] fresh).1 = Ok "See [a].".
Proof.
  assert (Hctx : render_context [block_a; block_b] = Ok "[a] T1

[b] T2") by (vm_compute; reflexivity).
  split.
  - by rewrite (proj1 (generate_answer_verbatim example_settings
                         (stub_remote (Some "See [a].")) openai_service "Q"
                         [block_a; block_b] _ fresh Hctx)
                  _ _ _ _ _ eq_refl eq_refl eq_refl eq_refl).
  - by rewrite (proj2 (generate_answer_verbatim example_settings
                         (stub_remote (Some "See [a].")) anthropic_service "Q"
                         [block_a; block_b] _ fresh Hctx)
                  _ _ _ _ _ eq_refl eq_refl eq_refl eq_refl).
Defined.

(** X12: after construction [generate_answer] reads nothing of the
    settings but the temperature.  Two settings with the same temperature
    give the same run; a service bound to one vendor keeps calling that
    vendor, with its bound model and key, when the provider name, the keys
    or the model names of the settings differ. *)
Theorem generate_answer_reads_temperature_only
    settings1 settings2 remote self query blocks w :
  temperature settings1 = temperature settings2 →
  generate_answer settings1 remote self query blocks w =
  generate_answer settings2 remote self query blocks w.
Proof.
  intros Htemp. unfold generate_answer, request_answer. by rewrite Htemp.
Qed.

Lemma generate_answer_reads_temperature_only_witness :
  generate_answer example_settings (stub_remote (Some "Fine.")) openai_service "Q"
    [block_a] fresh =
  generate_answer (with_provider "anthropic" example_settings) (stub_remote (Some "Fine."))
    openai_service "Q" [block_a] fresh.
Proof.
  exact (generate_answer_reads_temperature_only example_settings
           (with_provider "anthropic" example_settings) (stub_remote (Some "Fine."))
           openai_service "Q" [block_a] fresh eq_refl).
Defined.

(** ** Embeddings *)

(** X13: [embed_texts] does not compare the response with the request: it
    returns one vector per item of the response, in the order of the
    response, also when the vendor sent fewer or more items than there
    were texts, and the log record still reports the number of texts. *)
Theorem embed_texts_trusts_response remote self texts w response :
  embeddings_endpoint remote (openai.api_key (openai_client self))
    {| openai.emb_model := embed_model self; openai.input := texts |} = Ok response →
  ∃ out w',
    embed_texts remote self texts w = (Ok out, w') ∧
    length out = length (openai.data response) ∧
    (∀ i item, openai.data response !! i = Some item →
               out !! i = Some (openai.embedding item)) ∧
    logged w' = logged w ++
      [(INFO, "Generated embeddings for " +:+ pretty (length texts) +:+ " texts")].
Proof.
  intros Hcall. rewrite embed_texts_run. cbv zeta. rewrite Hcall.
  do 2 eexists. split; [reflexivity |].
  split; [apply length_map |].
  split; [| reflexivity].
  intros i item Hitem. by rewrite list_lookup_fmap, Hitem.
Qed.

Lemma embed_texts_trusts_response_witness :
  ∃ out w',
    embed_texts single_vector_remote (EmbeddingService_init example_settings)
      ["alpha"; "beta"; "gamma"] fresh = (Ok out, w') ∧
    length out = 1 ∧
    (∀ i item, [ {| openai.embedding := stub_vector "alpha" |} ] !! i = Some item →
               out !! i = Some (openai.embedding item)) ∧
    logged w' = [] ++ [(INFO, "Generated embeddings for " +:+ pretty 3 +:+ " texts")].
Proof.
  exact (embed_texts_trusts_response single_vector_remote
           (EmbeddingService_init example_settings) ["alpha"; "beta"; "gamma"] fresh
           {| openai.data := [ {| openai.embedding := stub_vector "alpha" |} ] |} eq_refl).
Defined.

(** X14: [embed_query] returns the first vector of the response, whatever
    follows it, after the one call and the one information record of
    [embed_texts]. *)
Theorem embed_query_first_vector remote self query w item rest :
  embeddings_endpoint remote (openai.api_key (openai_client self))
    {| openai.emb_model := embed_model self; openai.input := [query] |}
    = Ok {| openai.data := item :: rest |} →
  embed_query remote self query w =
  (Ok (openai.embedding item),
   after_call w
     (EmbeddingsCreate (openai.api_key (openai_client self))
        {| openai.emb_model := embed_model self; openai.input := [query] |})
     INFO "Generated embeddings for 1 texts").
Proof.
  intros Hcall. unfold embed_query.
  rewrite run_bind, embed_texts_run. cbv zeta. by rewrite Hcall.
Qed.

Lemma embed_query_first_vector_witness :
  embed_query (stub_remote None) (EmbeddingService_init example_settings) "beta" fresh =
  (Ok (stub_vector "beta"),
   after_call fresh
     (EmbeddingsCreate "sk-openai"
        {| openai.emb_model := "text-embedding-3-small"; openai.input := ["beta"] |})
     INFO "Generated embeddings for 1 texts").
Proof.
  exact (embed_query_first_vector (stub_remote None)
           (EmbeddingService_init example_settings) "beta" fresh
           {| openai.embedding := stub_vector "beta" |} [] eq_refl).
Defined.

(** X15: when the vendor answers the query with no item at all,
    [embed_query] raises the index error of [embeddings[0]].  The indexing
    is outside the [try] of [embed_texts], so no error record is written:
    the log only says that embeddings were generated. *)
Theorem embed_query_empty_response remote self query w :
  embeddings_endpoint remote (openai.api_key (openai_client self))
    {| openai.emb_model := embed_model self; openai.input := [query] |}
    = Ok {| openai.data := [] |} →
  embed_query remote self query w =
  (Raise (mkExc "IndexError" "list index out of range"),
   after_call w
     (EmbeddingsCreate (openai.api_key (openai_client self))
        {| openai.emb_model := embed_model self; openai.input := [query] |})
     INFO "Generated embeddings for 1 texts").
Proof.
  intros Hcall. unfold embed_query.
  rewrite run_bind, embed_texts_run. cbv zeta. by rewrite Hcall.
Qed.

Lemma embed_query_empty_response_witness :
  embed_query hollow_remote (EmbeddingService_init example_settings) "beta" fresh =
  (Raise (mkExc "IndexError" "list index out of range"),
   after_call fresh
     (EmbeddingsCreate "sk-openai"
        {| openai.emb_model := "text-embedding-3-small"; openai.input := ["beta"] |})
     INFO "Generated embeddings for 1 texts").
Proof.
  exact (embed_query_empty_response hollow_remote
           (EmbeddingService_init example_settings) "beta" fresh eq_refl).
Defined.

(** X16: when the remote call fails, [embed_query] raises the exception of
    the vendor, after the one error record of [embed_texts]; it adds no
    handling of its own. *)
Theorem embed_query_reraises remote self query w e :
  embeddings_endpoint remote (openai.api_key (openai_client self))
    {| openai.emb_model := embed_model self; openai.input := [query] |} = Raise e →
  embed_query remote self query w =
  (Raise e,
   after_call w
     (EmbeddingsCreate (openai.api_key (openai_client self))
        {| openai.emb_model := embed_model self; openai.input := [query] |})
     ERROR ("Failed to generate embeddings: " +:+ exc_str e)).
Proof.
  intros Hcall. unfold embed_query.
  rewrite run_bind, embed_texts_run. cbv zeta. by rewrite Hcall.
Qed.

Lemma embed_query_reraises_witness :
  embed_query failing_remote (EmbeddingService_init example_settings) "beta" fresh =
  (Raise connection_error,
   after_call fresh
     (EmbeddingsCreate "sk-openai"
        {| openai.emb_model := "text-embedding-3-small"; openai.input := ["beta"] |})
     ERROR "Failed to generate embeddings: Connection error.").
Proof.
  exact (embed_query_reraises failing_remote
           (EmbeddingService_init example_settings) "beta" fresh connection_error eq_refl).
Defined.

(** ** Construction *)

(** X18: a constructed service keeps the provider name of the settings and
    holds the client, the key and the chat model of that vendor only: with
    [openai] the Anthropic key and model are not used, and the other way
    round. *)
Theorem ChatService_init_binds settings w self w' :
  ChatService_init settings w = (Ok self, w') →
  provider self = ai_provider settings ∧
  ((provider self = "openai" ∧
    client self = OpenAIClient {| openai.api_key := openai_api_key settings |} ∧
    model self = openai_chat_model settings) ∨
   (provider self = "anthropic" ∧
    client self = AnthropicClient {| anthropic.api_key := anthropic_api_key settings |} ∧
    model self = anthropic_chat_model settings)).
Proof.
  intros Hinit.
  destruct (ChatService_init_inv _ _ _ _ Hinit) as [[Hp ->]|[Hp ->]];
    cbn; rewrite Hp; auto 6.
Qed.

Lemma ChatService_init_binds_witness :
  provider anthropic_service = "anthropic" ∧
  ((provider anthropic_service = "openai" ∧
    client anthropic_service = OpenAIClient {| openai.api_key := "sk-openai" |} ∧
    model anthropic_service = "gpt-4o") ∨
   (provider anthropic_service = "anthropic" ∧
    client anthropic_service = AnthropicClient {| anthropic.api_key := "sk-anthropic" |} ∧
    model anthropic_service = "claude-3-5-sonnet")).
Proof.
  exact (ChatService_init_binds (with_provider "anthropic" example_settings) fresh
           anthropic_service _ eq_refl).
Defined.

(** X19: constructing the chat service never makes a remote call.  When it
    succeeds it writes one information record that names the provider and
    the model; when it fails it writes nothing. *)
Theorem ChatService_init_effects settings w :
  remote_calls (ChatService_init settings w).2 = remote_calls w ∧
  match (ChatService_init settings w).1 with
  | Ok self =>
      logged (ChatService_init settings w).2 = logged w ++
        [(INFO, "Initialized chat service with " +:+ provider self
                +:+ " (" +:+ model self +:+ ")")]
  | Raise _ => logged (ChatService_init settings w).2 = logged w
  end.
Proof.
  destruct (decide (ai_provider settings = "openai")) as [Ho|Ho].
  { by rewrite ChatService_init_openai. }
  destruct (decide (ai_provider settings = "anthropic")) as [Ha|Ha].
  { by rewrite ChatService_init_anthropic. }
  by rewrite ChatService_init_other.
Qed.

(** X20: importing the module builds the embedding service and then the
    chat service.  Whenever the import yields the two instances, the
    embedding service is the OpenAI one with the OpenAI key and embedding
    model of the settings, the chat service has the provider of the
    settings, which is one of the two supported names, and no remote call
    was made.  With any other provider name the import does not yield the
    instances, so the module offers no embedding service either. *)
Theorem module_instances_outcome settings w :
  (∀ embedding_service chat_service w',
     module_instances settings w = (Ok (embedding_service, chat_service), w') →
     embedding_service =
       {| openai_client := {| openai.api_key := openai_api_key settings |};
          embed_model := openai_embed_model settings |} ∧
     provider chat_service = ai_provider settings ∧
     (ai_provider settings = "openai" ∨ ai_provider settings = "anthropic") ∧
     remote_calls w' = remote_calls w) ∧
  (ai_provider settings ≠ "openai" → ai_provider settings ≠ "anthropic" →
   ¬ ∃ instances w', module_instances settings w = (Ok instances, w')).
Proof.
  unfold module_instances. split.
  - intros embedding_service chat_service w'. rewrite run_bind.
    destruct (ChatService_init settings w) as [[self|e] w1] eqn:Hinit; [| discriminate].
    cbn. intros [= <- <- <-].
    split; [reflexivity |].
    destruct (ChatService_init_inv _ _ _ _ Hinit) as [[Hp ->]|[Hp ->]].
    + rewrite ChatService_init_openai in Hinit by done.
      injection Hinit as <-. cbn. rewrite Hp. auto.
    + rewrite ChatService_init_anthropic in Hinit by done.
      injection Hinit as <-. cbn. rewrite Hp. auto.
  - intros Ho Ha (instances & w' & Hrun). revert Hrun.
    rewrite run_bind. by rewrite ChatService_init_other.
Qed.

Lemma module_instances_outcome_witness :
  ((module_instances (with_provider "anthropic" example_settings) fresh).1 =
     Ok ({| openai_client := {| openai.api_key := "sk-openai" |};
            embed_model := "text-embedding-3-small" |}, anthropic_service) ∧
   remote_calls (module_instances (with_provider "anthropic" example_settings) fresh).2
     = []) ∧
  ¬ ∃ instances w',
      module_instances (with_provider "cohere" example_settings) fresh
      = (Ok instances, w').
Proof.
  split.
  - destruct (proj1 (module_instances_outcome
                       (with_provider "anthropic" example_settings) fresh)
                _ anthropic_service _ eq_refl) as (Hemb & _ & _ & Hcalls).
    split; [reflexivity | exact Hcalls].
  - apply (proj2 (module_instances_outcome
                    (with_provider "cohere" example_settings) fresh)); discriminate.
Defined.
